(** * A barcode reading script: [app.py] and [main.py]

    The script loads an image with OpenCV, blurs and thresholds it, shows
    the result in a window, hands it to a barcode decoder and prints the
    first decoded value.  This file embeds the two Python modules and the
    few OpenCV and Python primitives they call, and states the properties
    of the script as theorems about that embedding.

    Conventions.  Python [int]s are [Z]; 8-bit pixels are [Z] in
    [0, 255]; a [bytes] object is a list of byte values; a [str] is kept as
    its UTF-8 encoding in a [string]; a module namespace (a Python [dict])
    is a [gmap string pyobj]; exceptions and console output are threaded
    through a small monad [M]. *)

From Stdlib Require Import ZArith Lia.
From stdpp Require Import base option list strings gmap.

Local Open Scope Z_scope.

(** ** Arrays *)

(** A two-dimensional [numpy] array: its shape and its rows.  The element
    type is the pixel type, so a three-channel image is an array of
    triples. *)
Record ndarray (A : Type) : Type := mk_ndarray
  { rows : nat;
    cols : nat;
    pixels : list (list A) }.

Arguments mk_ndarray {A} _ _ _.
Arguments rows {A} _.
Arguments cols {A} _.
Arguments pixels {A} _.

(** The rows agree with the declared shape. *)
Definition shaped {A} (a : ndarray A) : Prop :=
  length (pixels a) = rows a ∧ Forall (λ r, length r = cols a) (pixels a).

Definition shape {A} (a : ndarray A) : nat * nat := (rows a, cols a).

Definition is_empty {A} (a : ndarray A) : bool :=
  (rows a =? 0)%nat || (cols a =? 0)%nat.

(** [a[r, c]], with 0 outside the stored rows (only used in range). *)
Definition at_ (a : ndarray Z) (r c : nat) : Z :=
  nth c (nth r (pixels a) []) 0.

(** Python's adjustment of one bound of a slice with step 1 against a
    sequence of length [len]: a negative bound counts from the end, and the
    result is clamped to [0, len]. *)
Definition slice_index (len : nat) (i : Z) : nat :=
  let n := Z.of_nat len in
  let i := if i <? 0 then i + n else i in
  if i <? 0 then 0%nat
  else if n <? i then len
  else Z.to_nat i.

(** [l[start:stop]]. *)
Definition py_slice {A} (len : nat) (l : list A) (start stop : Z) : list A :=
  let lo := slice_index len start in
  let hi := slice_index len stop in
  take (hi - lo) (drop lo l).

Definition slice_len (len : nat) (start stop : Z) : nat :=
  (slice_index len stop - slice_index len start)%nat.

(** [a[r0:r1, c0:c1]]: basic slicing of the first two axes. *)
Definition getitem {A} (a : ndarray A) (r0 r1 c0 c1 : Z) : ndarray A :=
  {| rows := slice_len (rows a) r0 r1;
     cols := slice_len (cols a) c0 c1;
     pixels := (λ r, py_slice (cols a) r c0 c1) <$> py_slice (rows a) (pixels a) r0 r1 |}.

(** ** Barcode candidates *)

(** The rectangle of a decoded symbol: [(left, top, width, height)]. *)
Record Rect : Type := mk_Rect
  { left : Z;
    top : Z;
    width : Z;
    height : Z }.

(** One result of the decoder: payload bytes, symbology name, location. *)
Record Decoded : Type := mk_Decoded
  { data : list Z;
    type : string;
    rect : Rect }.

(** ** [BarcodeDetector.extract_barcode] *)

Definition extract_barcode {A} (image : ndarray A) (barcode : Decoded) : ndarray A :=
  let '(x, y, w, h) :=
    (left (rect barcode), top (rect barcode), width (rect barcode), height (rect barcode)) in
  let barcode_image := getitem image y (y + h) x (x + w) in
  barcode_image.

(** ** Exceptions, console and library calls *)

(** The exceptions the script can meet.  [cv2_error f] is [cv2.error]
    raised inside the library function [f].  [NotModelled f] is not a
    Python exception: it marks a call of [f] with arguments this
    development does not cover (the script makes no such call). *)
Inductive exn : Type :=
  | NameError (name : string)
  | AttributeError (name : string)
  | TypeError (what : string)
  | UnicodeDecodeError
  | cv2_error (func : string)
  | NotModelled (func : string).

Inductive outcome (A : Type) : Type :=
  | Return (a : A)
  | Raise (e : exn).

Arguments Return {A} _.
Arguments Raise {A} _.

(** An 8-bit image as OpenCV hands it to Python: one channel or three. *)
Inductive mat : Type :=
  | Mat8UC1 (a : ndarray Z)
  | Mat8UC3 (a : ndarray (Z * Z * Z)).

Definition IMREAD_UNCHANGED : Z := -1.
Definition IMREAD_GRAYSCALE : Z := 0.
Definition IMREAD_COLOR : Z := 1.

(** What the process does to the outside, in order. *)
Inductive event : Type :=
  | EvImread (filename : string) (flags : Z)
  | EvImshow (winname : string) (image : mat)
  | EvWaitKey (delay : Z)
  | EvDestroyAllWindows
  | EvPrint (line : string).

(** A decodable image file, as [imread] renders it in grey and in colour. *)
Record image_file : Type := mk_image_file
  { grayscale : ndarray Z;
    color : ndarray (Z * Z * Z) }.

(** The surroundings of a run: the files that decode as images, whether
    the OpenCV build can open windows, and whether its [cv2] module has the
    attribute [barcode_BarcodeDetector]. *)
Record world : Type := mk_world
  { files : gmap string image_file;
    highgui : bool;
    barcode_module : bool }.

(** A computation reads the surroundings, emits events and returns or
    raises. *)
Definition M (A : Type) : Type := world → list event * outcome A.

Definition pure {A} (a : A) : M A := λ _, ([], Return a).

Definition bind {A B} (m : M A) (k : A → M B) : M B := λ w,
  match m w with
  | (t, Return a) => let '(t', r) := k a w in (t ++ t', r)
  | (t, Raise e) => (t, Raise e)
  end.

Definition raise {A} (e : exn) : M A := λ _, ([], Raise e).
Definition emit (e : event) : M unit := λ _, ([e], Return tt).
Definition ask : M world := λ w, ([], Return w).

Global Instance M_ret : MRet M := @pure.
Global Instance M_bind : MBind M := λ A B k m, bind m k.

(** [print(...)] of an already formatted line. *)
Definition print (line : string) : M unit := emit (EvPrint line).

(** ** OpenCV *)

(** [cv2.imread]: [None] when the path does not decode as an image (an
    empty matrix comes back to Python as [None]), otherwise the pixels in
    the requested form.  Only the two forms the script asks for are
    tabulated; any other flag is read as colour. *)
Definition imread (filename : string) (flags : Z) : M (option mat) :=
  emit (EvImread filename flags);;
  w ← ask;
  mret (match files w !! filename with
       | None => None
       | Some f =>
           if flags =? IMREAD_GRAYSCALE
           then (if is_empty (grayscale f) then None else Some (Mat8UC1 (grayscale f)))
           else (if is_empty (color f) then None else Some (Mat8UC3 (color f)))
       end).

(** Border handling of the filters, [BORDER_REFLECT_101]: the index is
    mirrored about the first and the last element, these not repeated
    ([gfedcb|abcdefgh|gfedcba]). *)
Definition borderInterpolate (p len : Z) : Z :=
  if (0 <=? p) && (p <? len) then p
  else if len =? 1 then 0
  else
    let m := 2 * (len - 1) in
    let q := p mod m in
    if q <? len then q else m - q.

(** The kernels OpenCV tabulates for a non-positive sigma, in units of
    1/256: sizes 1, 3, 5 and 7. *)
Definition small_gaussian_tab (ksize : Z) : option (list Z) :=
  if ksize =? 1 then Some [256]
  else if ksize =? 3 then Some [64; 128; 64]
  else if ksize =? 5 then Some [16; 64; 96; 64; 16]
  else if ksize =? 7 then Some [8; 28; 56; 72; 56; 28; 8]
  else None.

(** The kernel taps with their offsets from the centre. *)
Definition taps (k : list Z) : list (Z * Z) :=
  zip (seqZ (- (Z.of_nat (length k) / 2)) (Z.of_nat (length k))) k.

Definition sumZ (l : list Z) : Z := foldr Z.add 0 l.

(** One output pixel of the separable filter with kernels [kx] and [ky],
    rounded to the nearest integer as the 8-bit fixed-point code does. *)
Definition blur_pixel (src : ndarray Z) (kx ky : list Z) (r c : nat) : Z :=
  let H := Z.of_nat (rows src) in
  let W := Z.of_nat (cols src) in
  let acc :=
    sumZ ((λ '(dy, wy),
            wy * sumZ ((λ '(dx, wx),
                         wx * at_ src (Z.to_nat (borderInterpolate (Z.of_nat r + dy) H))
                                      (Z.to_nat (borderInterpolate (Z.of_nat c + dx) W)))
                       <$> taps kx))
          <$> taps ky) in
  (acc + 32768) / 65536.

Definition blur_plane (src : ndarray Z) (kx ky : list Z) : ndarray Z :=
  {| rows := rows src;
     cols := cols src;
     pixels := (λ r, (λ c, blur_pixel src kx ky r c) <$> seq 0 (cols src))
               <$> seq 0 (rows src) |}.

(** [cv2.GaussianBlur(src, ksize, sigmaX)] on an 8-bit single-channel
    image.  A missing or empty source and an even or non-positive size
    fail the library's assertions. *)
Definition GaussianBlur (src : option mat) (ksize : Z * Z) (sigmaX : Z) : M mat :=
  match src with
  | None => raise (cv2_error "GaussianBlur")
  | Some (Mat8UC3 _) => raise (NotModelled "GaussianBlur")
  | Some (Mat8UC1 a) =>
      if is_empty a then raise (cv2_error "GaussianBlur")
      else if negb ((0 <? ksize.1) && (ksize.1 mod 2 =? 1)
                    && (0 <? ksize.2) && (ksize.2 mod 2 =? 1))
      then raise (cv2_error "GaussianBlur")
      else if 0 <? sigmaX then raise (NotModelled "GaussianBlur")
      else
        match small_gaussian_tab ksize.1, small_gaussian_tab ksize.2 with
        | Some kx, Some ky => mret (Mat8UC1 (blur_plane a kx ky))
        | _, _ => raise (NotModelled "GaussianBlur")
        end
  end.

Definition THRESH_BINARY : Z := 0.
Definition THRESH_BINARY_INV : Z := 1.
Definition THRESH_TRUNC : Z := 2.
Definition THRESH_TOZERO : Z := 3.
Definition THRESH_TOZERO_INV : Z := 4.
Definition THRESH_MASK : Z := 7.
Definition THRESH_OTSU : Z := 8.
Definition THRESH_TRIANGLE : Z := 16.

(** All pixels of an image, row after row. *)
Definition flat {A} (a : ndarray A) : list A := concat (pixels a).

(** Number of pixels of intensity [i]. *)
Definition hist (src : ndarray Z) (i : Z) : Z :=
  Z.of_nat (length (filter (λ p, p = i) (flat src))).

(** State of Otsu's scan after the levels up to some [i]: [n1] pixels lie at
    or below [i] and their intensities add up to [s1]; the best
    between-class variance so far is [max_num / max_den], reached at
    [max_val]. *)
Record otsu_state : Type := mk_otsu
  { n1 : Z;
    s1 : Z;
    max_num : Z;
    max_den : Z;
    max_val : Z }.

(** One level of the scan.  With [N] pixels of total intensity [S], the
    two classes hold the fractions [q1 = n1/N] and [q2 = n2/N] with means
    [s1/n1] and [s2/n2], and the between-class variance
    [q1 * q2 * (mu1 - mu2)^2] is [(s1*n2 - s2*n1)^2 / (n1*n2)] over the
    constant [N^2].  A level that leaves a class without pixels is passed
    over; a level replaces the best one only when strictly better.  The
    library computes with floating-point numbers; here the numbers are
    exact. *)
Definition otsu_step (h : Z → Z) (N S : Z) (st : otsu_state) (i : Z) : otsu_state :=
  let n1' := n1 st + h i in
  let s1' := s1 st + i * h i in
  let n2 := N - n1' in
  if Z.min n1' n2 <=? 0
  then {| n1 := n1'; s1 := s1'; max_num := max_num st; max_den := max_den st;
          max_val := max_val st |}
  else
    let s2 := S - s1' in
    let d := s1' * n2 - s2 * n1' in
    let num := d * d in
    let den := n1' * n2 in
    if max_num st * den <? num * max_den st
    then {| n1 := n1'; s1 := s1'; max_num := num; max_den := den; max_val := i |}
    else {| n1 := n1'; s1 := s1'; max_num := max_num st; max_den := max_den st;
            max_val := max_val st |}.

Definition otsu_init : otsu_state :=
  {| n1 := 0; s1 := 0; max_num := 0; max_den := 1; max_val := 0 |}.

(** Otsu's threshold of an 8-bit image: the level that maximises the
    between-class variance of the histogram, which is the one that
    minimises the variance within the classes. *)
Definition getThreshVal_Otsu_8u (src : ndarray Z) : Z :=
  let N := Z.of_nat (rows src * cols src) in
  let S := sumZ (flat src) in
  max_val (foldl (otsu_step (hist src) N S) otsu_init (seqZ 0 256)).

(** The five per-pixel threshold rules on 8-bit values. *)
Definition thresh_pixel (type : Z) (thresh maxval : Z) (p : Z) : Z :=
  if type =? THRESH_BINARY then (if thresh <? p then maxval else 0)
  else if type =? THRESH_BINARY_INV then (if thresh <? p then 0 else maxval)
  else if type =? THRESH_TRUNC then (if thresh <? p then thresh else p)
  else if type =? THRESH_TOZERO then (if thresh <? p then p else 0)
  else (if thresh <? p then 0 else p).

Definition map_pixels {A B} (f : A → B) (a : ndarray A) : ndarray B :=
  {| rows := rows a; cols := cols a; pixels := (λ r : list A, f <$> r) <$> pixels a |}.

(** [cv2.threshold(src, thresh, maxval, type)]: returns the threshold used
    and the result.  With [THRESH_OTSU] in [type] the given threshold is
    replaced by Otsu's, which needs a single channel. *)
Definition threshold (src : mat) (thresh maxval : Z) (type : Z) : M (Z * mat) :=
  let automatic_thresh := type - Z.land type THRESH_MASK in
  let type := Z.land type THRESH_MASK in
  if negb ((0 <=? maxval) && (maxval <=? 255) && (type <=? THRESH_TOZERO_INV))
  then raise (NotModelled "threshold")
  else
    match src with
    | Mat8UC1 a =>
        if automatic_thresh =? THRESH_OTSU then
          let thresh := getThreshVal_Otsu_8u a in
          mret (thresh, Mat8UC1 (map_pixels (thresh_pixel type thresh maxval) a))
        else if automatic_thresh =? 0 then
          mret (thresh, Mat8UC1 (map_pixels (thresh_pixel type thresh maxval) a))
        else raise (NotModelled "threshold")
    | Mat8UC3 a =>
        if automatic_thresh =? 0 then
          mret (thresh,
                Mat8UC3 (map_pixels (λ '(b, g, r),
                           (thresh_pixel type thresh maxval b,
                            thresh_pixel type thresh maxval g,
                            thresh_pixel type thresh maxval r)) a))
        else if automatic_thresh =? THRESH_OTSU then raise (cv2_error "threshold")
        else raise (NotModelled "threshold")
    end.

(** [cv2.imshow], [cv2.waitKey], [cv2.destroyAllWindows]: they need a
    build with window support.  The key press [waitKey(0)] waits for is
    taken to arrive. *)
Definition imshow (winname : string) (image : mat) : M unit :=
  w ← ask;
  if highgui w then emit (EvImshow winname image)
  else raise (cv2_error "imshow").

Definition waitKey (delay : Z) : M unit :=
  w ← ask;
  if highgui w then emit (EvWaitKey delay)
  else raise (cv2_error "waitKey").

Definition destroyAllWindows : M unit :=
  w ← ask;
  if highgui w then emit EvDestroyAllWindows
  else raise (cv2_error "destroyAllWindows").

(** [cv2.barcode_BarcodeDetector()]: the detector handle, which keeps no
    state. *)
Definition barcode_BarcodeDetector : M unit :=
  w ← ask;
  if barcode_module w then mret tt
  else raise (AttributeError "barcode_BarcodeDetector").

(** ** Python strings and names *)

Definition is_cont (b : Z) : bool := (0x80 <=? b) && (b <=? 0xBF).

(** Well-formed UTF-8: shortest forms only, no surrogates, nothing above
    U+10FFFF. *)
Fixpoint utf8_valid (bs : list Z) : bool :=
  match bs with
  | [] => true
  | b0 :: r0 =>
      if (0 <=? b0) && (b0 <=? 0x7F) then utf8_valid r0
      else if (0xC2 <=? b0) && (b0 <=? 0xDF) then
        match r0 with
        | b1 :: r1 => is_cont b1 && utf8_valid r1
        | _ => false
        end
      else if (0xE0 <=? b0) && (b0 <=? 0xEF) then
        match r0 with
        | b1 :: b2 :: r2 =>
            is_cont b1 && is_cont b2
            && (if b0 =? 0xE0 then 0xA0 <=? b1 else true)
            && (if b0 =? 0xED then b1 <=? 0x9F else true)
            && utf8_valid r2
        | _ => false
        end
      else if (0xF0 <=? b0) && (b0 <=? 0xF4) then
        match r0 with
        | b1 :: b2 :: b3 :: r3 =>
            is_cont b1 && is_cont b2 && is_cont b3
            && (if b0 =? 0xF0 then 0x90 <=? b1 else true)
            && (if b0 =? 0xF4 then b1 <=? 0x8F else true)
            && utf8_valid r3
        | _ => false
        end
      else false
  end.

Definition str_of_bytes (bs : list Z) : string :=
  foldr (λ b s, String (Ascii.ascii_of_N (Z.to_N b)) s) EmptyString bs.

(** [bytes.decode("utf-8")]. *)
Definition bytes_decode_utf8 (bs : list Z) : M string :=
  if utf8_valid bs then mret (str_of_bytes bs)
  else raise UnicodeDecodeError.

(** Truth value of a [str] or [None]. *)
Definition truthy (v : option string) : bool :=
  match v with
  | None => false
  | Some s => negb (String.eqb s "")
  end.

(** [str(v)] as [print] applies it. *)
Definition str (v : option string) : string :=
  match v with
  | None => "None"
  | Some s => s
  end.

(** What a global name can be bound to.  A function is one that takes an
    image and gives barcode results, the only kind the script calls
    through a global name. *)
Inductive pyobj : Type :=
  | PyModule (name : string)
  | PyClass (name : string)
  | PyBuiltin (name : string)
  | PyFunction (f : mat → M (list Decoded)).

(** The names of the [builtins] module of Python 3. *)
Definition builtin_names : list string :=
  [ "abs"; "aiter"; "all"; "anext"; "any"; "ascii"; "bin"; "bool";
    "breakpoint"; "bytearray"; "bytes"; "callable"; "chr"; "classmethod";
    "compile"; "complex"; "copyright"; "credits"; "delattr"; "dict"; "dir";
    "divmod"; "enumerate"; "eval"; "exec"; "exit"; "filter"; "float";
    "format"; "frozenset"; "getattr"; "globals"; "hasattr"; "hash"; "help";
    "hex"; "id"; "input"; "int"; "isinstance"; "issubclass"; "iter"; "len";
    "license"; "list"; "locals"; "map"; "max"; "memoryview"; "min"; "next";
    "object"; "oct"; "open"; "ord"; "pow"; "print"; "property"; "quit";
    "range"; "repr"; "reversed"; "round"; "set"; "setattr"; "slice";
    "sorted"; "staticmethod"; "str"; "sum"; "super"; "tuple"; "type";
    "vars"; "zip"; "__import__"; "__build_class__"; "__debug__"; "__doc__";
    "__loader__"; "__name__"; "__package__"; "__spec__";
    "None"; "True"; "False"; "Ellipsis"; "NotImplemented";
    "BaseException"; "BaseExceptionGroup"; "Exception"; "ExceptionGroup";
    "GeneratorExit"; "KeyboardInterrupt"; "SystemExit"; "ArithmeticError";
    "AssertionError"; "AttributeError"; "BlockingIOError";
    "BrokenPipeError"; "BufferError"; "BytesWarning";
    "ChildProcessError"; "ConnectionAbortedError"; "ConnectionError";
    "ConnectionRefusedError"; "ConnectionResetError"; "DeprecationWarning";
    "EOFError"; "EncodingWarning"; "EnvironmentError"; "FileExistsError";
    "FileNotFoundError"; "FloatingPointError"; "FutureWarning"; "IOError";
    "ImportError"; "ImportWarning"; "IndentationError"; "IndexError";
    "InterruptedError"; "IsADirectoryError"; "KeyError"; "LookupError";
    "MemoryError"; "ModuleNotFoundError"; "NameError";
    "NotADirectoryError"; "NotImplementedError"; "OSError";
    "OverflowError"; "PendingDeprecationWarning"; "PermissionError";
    "ProcessLookupError"; "PythonFinalizationError"; "RecursionError";
    "ReferenceError"; "ResourceWarning"; "RuntimeError"; "RuntimeWarning";
    "StopAsyncIteration"; "StopIteration"; "SyntaxError"; "SyntaxWarning";
    "SystemError"; "TabError"; "TimeoutError"; "TypeError";
    "UnboundLocalError"; "UnicodeDecodeError"; "UnicodeEncodeError";
    "UnicodeError"; "UnicodeTranslateError"; "UnicodeWarning";
    "UserWarning"; "ValueError"; "Warning"; "ZeroDivisionError" ].

(** Lookup of a name that is not local to the function using it: the
    globals of the module first, the builtins next. *)
Definition resolve (globals : gmap string pyobj) (name : string) : option pyobj :=
  match globals !! name with
  | Some o => Some o
  | None => if bool_decide (name ∈ builtin_names) then Some (PyBuiltin name) else None
  end.

(** [name(image)] for a global [name].  An unbound name raises
    [NameError].  A module is not callable, and neither class of [app.py]
    takes an argument; both raise [TypeError].  No builtin gives barcode
    results, and such a call is not followed further. *)
Definition call_global (globals : gmap string pyobj) (name : string) (image : mat)
  : M (list Decoded) :=
  match resolve globals name with
  | None => raise (NameError name)
  | Some (PyFunction f) => f image
  | Some (PyModule _) => raise (TypeError "'module' object is not callable")
  | Some (PyClass _) => raise (TypeError "__init__() takes 1 positional argument but 2 were given")
  | Some (PyBuiltin _) => raise (NotModelled name)
  end.

(** The globals of module [app] once it is loaded: its two imports and
    its two classes. *)
Definition app_globals : gmap string pyobj :=
  <["BarcodeDecoder" := PyClass "BarcodeDecoder"]>
  (<["BarcodeDetector" := PyClass "BarcodeDetector"]>
  (<["np" := PyModule "numpy"]>
  (<["cv2" := PyModule "cv2"]> ∅))).

(** ** [app.py] *)

(** [detect_barcodes] only forwards its argument to the detector of the
    library and nothing in the two modules calls it; it is left out. *)

(** [BarcodeDetector]: the instance holds the detector handle. *)
Record BarcodeDetector : Type := mk_BarcodeDetector
  { barcode_detector : unit }.

(** [BarcodeDecoder(BarcodeDetector)]: the inherited part and the list
    [barcode_types]. *)
Record BarcodeDecoder : Type := mk_BarcodeDecoder
  { detector : BarcodeDetector;
    barcode_types : list Z }.

Definition BarcodeDetector_init : M BarcodeDetector :=
  handle ← barcode_BarcodeDetector;
  mret {| barcode_detector := handle |}.

Definition BarcodeDecoder_init : M BarcodeDecoder :=
  super ← BarcodeDetector_init;
  mret {| detector := super;
          barcode_types := [IMREAD_UNCHANGED; IMREAD_GRAYSCALE; IMREAD_COLOR] |}.

Definition preprocess_image (self : BarcodeDetector) (image_path : string) : M mat :=
  im ← imread image_path IMREAD_GRAYSCALE;
  blur ← GaussianBlur im (5, 5) 0;
  '(ret, bw_im) ← threshold blur 0 255 (THRESH_BINARY + THRESH_OTSU);
  mret bw_im.

Definition show_preprocessed_image (self : BarcodeDetector) (preprocessed_image : mat)
  : M unit :=
  imshow "Preprocessed Image" preprocessed_image;;
  waitKey 0;;
  destroyAllWindows.

(** [decode_barcode] in a module whose globals are [globals].  The name
    [decode] is not local to the method, so it is looked up in the
    globals when the call is reached.  The loop over a non-empty result
    returns in its first round. *)
Definition decode_barcode (globals : gmap string pyobj) (self : BarcodeDecoder)
    (image_path : string) : M (option string * option string) :=
  image ← imread image_path IMREAD_COLOR;
  preprocessed_image ← preprocess_image (detector self) image_path;
  show_preprocessed_image (detector self) preprocessed_image;;
  barcodes ← call_global globals "decode" preprocessed_image;
  match barcodes with
  | barcode :: _ =>
      barcode_data ← bytes_decode_utf8 (data barcode);
      let barcode_type := type barcode in
      mret (Some barcode_data, Some barcode_type)
  | [] => mret (None, None)
  end.

(** ** [main.py] *)

(** What a process is started with. *)
Record process : Type := mk_process
  { argv : list string;
    environ : gmap string string }.

(** [main()], with the globals of the imported module [app] as they are
    when it is called. *)
Definition main (proc : process) (globals : gmap string pyobj) : M unit :=
  barcode_decoder ← BarcodeDecoder_init;
  let image_path := "your_image_path.jpg" in
  '(barcode_data, barcode_type) ← decode_barcode globals barcode_decoder image_path;
  if truthy barcode_data then
    print ("Barcode Data: " +:+ str barcode_data);;
    print ("Barcode Type: " +:+ str barcode_type)
  else
    print "No barcode detected or decoded.".

(** Running [main.py]: [app] is imported, then [main()] is called. *)
Definition run_script (proc : process) : M unit := main proc app_globals.

(** ** Sample data *)

Definition sample_gray : ndarray Z :=
  {| rows := 3; cols := 4;
     pixels := [ [10; 200; 30; 220]; [15; 210; 25; 230]; [12; 190; 35; 240] ] |}.

Definition sample_color : ndarray (Z * Z * Z) :=
  map_pixels (λ p, (p, p, p)) sample_gray.

Definition sample_file : image_file :=
  {| grayscale := sample_gray; color := sample_color |}.

(** An image of a blank page. *)
Definition blank_gray : ndarray Z :=
  {| rows := 2; cols := 3; pixels := [ [255; 255; 255]; [255; 255; 255] ] |}.

Definition blank_file : image_file :=
  {| grayscale := blank_gray; color := map_pixels (λ p, (p, p, p)) blank_gray |}.

Definition sample_world : world :=
  {| files := <["your_image_path.jpg" := sample_file]>
              (<["code128.png" := sample_file]>
              (<["blank.png" := blank_file]> ∅));
     highgui := true;
     barcode_module := true |}.

Definition empty_world : world :=
  {| files := ∅; highgui := true; barcode_module := true |}.

Definition sample_process : process := {| argv := ["main.py"]; environ := ∅ |}.

(** The instance [BarcodeDecoder()] builds. *)
Definition decoder_instance : BarcodeDecoder :=
  {| detector := {| barcode_detector := tt |};
     barcode_types := [IMREAD_UNCHANGED; IMREAD_GRAYSCALE; IMREAD_COLOR] |}.

(** A stand-in decoder that reports one symbol with the given payload,
    and one that reports the given results. *)
Definition decode_to (barcodes : list Decoded) : mat → M (list Decoded) :=
  λ _, mret barcodes.


Definition symbol (payload : list Z) (symbology : string) : Decoded :=
  {| data := payload; type := symbology;
     rect := {| left := 0; top := 0; width := 4; height := 3 |} |}.

Definition decode_as (payload : list Z) (symbology : string) : mat → M (list Decoded) :=
  decode_to [symbol payload symbology].

Definition globals_with (f : mat → M (list Decoded)) : gmap string pyobj :=
  <["decode" := PyFunction f]> app_globals.

(** ** Predicates of the statements *)

(** An 8-bit value, and a value of a two-level image. *)
Definition is_uint8 (p : Z) : Prop := 0 ≤ p ≤ 255.
Definition two_level (p : Z) : Prop := p = 0 ∨ p = 255.

Definition all_pixels {A} (P : A → Prop) (a : ndarray A) : Prop :=
  Forall (Forall P) (pixels a).

(** [imread] in grey gives the image [g] for this path. *)
Definition loads_gray (w : world) (image_path : string) (g : ndarray Z) : Prop :=
  (imread image_path IMREAD_GRAYSCALE w).2 = Return (Some (Mat8UC1 g)).

(** The path does not resolve to a readable image: [imread] gives [None]
    in grey. *)
Definition unreadable (w : world) (image_path : string) : Prop :=
  (imread image_path IMREAD_GRAYSCALE w).2 = Return None.

(** Number of pixels of intensity in [0, i). *)
Definition below (i : Z) (l : list Z) : Z :=
  Z.of_nat (length (filter (λ p, 0 ≤ p < i) l)).

(** The lines printed in a trace. *)
Definition printed (t : list event) : list string :=
  omap (λ e, match e with EvPrint line => Some line | _ => None end) t.

(** The files a trace reads. *)
Definition files_read (t : list event) : list string :=
  omap (λ e, match e with EvImread filename _ => Some filename | _ => None end) t.

(** The kernel the script asks for: the 5-tap row of the table. *)
Definition kernel5 : list Z := [16; 64; 96; 64; 16].

(** What [preprocess_image] computes from a loaded image. *)
Definition preprocessed (g : ndarray Z) : ndarray Z :=
  let blur := blur_plane g kernel5 kernel5 in
  map_pixels (thresh_pixel THRESH_BINARY (getThreshVal_Otsu_8u blur) 255) blur.

(** Surroundings with one more file, under the name a caller might have
    wanted. *)
Definition other_world : world :=
  {| files := <["other.jpg" := blank_file]> (files sample_world);
     highgui := true;
     barcode_module := true |}.

Definition other_process : process :=
  {| argv := ["main.py"; "other.jpg"];
     environ := <["IMAGE_PATH" := "other.jpg"]> ∅ |}.

(** [a[r][c]] where the array stores it. *)
Definition pixel_at {A} (a : ndarray A) (r c : nat) : option A :=
  row ← pixels a !! r; row !! c.

(** The rectangle [inner], given relative to the rectangle [outer], in the
    coordinates of the image [outer] is cut from. *)
Definition nested (outer inner : Decoded) : Decoded :=
  {| data := data inner;
     type := type inner;
     rect := {| left := left (rect outer) + left (rect inner);
                top := top (rect outer) + top (rect inner);
                width := width (rect inner);
                height := height (rect inner) |} |}.



(** Surroundings like [sample_world] but without window support. *)
Definition headless_world : world :=
  {| files := files sample_world; highgui := false; barcode_module := true |}.

(** Surroundings like [sample_world] but with an OpenCV that lacks the
    barcode detector. *)
Definition bare_world : world :=
  {| files := files sample_world; highgui := true; barcode_module := false |}.

(** Surroundings like [sample_world] where the file of the fixed path
    renders differently in colour. *)
Definition tinted_world : world :=
  {| files := <["your_image_path.jpg" :=
                 {| grayscale := sample_gray;
                    color := map_pixels (λ p, (0, p, 255)) sample_gray |}]>
              (files sample_world);
     highgui := true;
     barcode_module := true |}.

(** The exception a run of the script ends in, read off the
    surroundings. *)
Definition script_failure (w : world) : exn :=
  if barcode_module w then
    match (imread "your_image_path.jpg" IMREAD_GRAYSCALE w).2 with
    | Return (Some _) =>
        if highgui w then NameError "decode" else cv2_error "imshow"
    | _ => cv2_error "GaussianBlur"
    end
  else AttributeError "barcode_BarcodeDetector".

(** A byte that can occur in well-formed UTF-8. *)
Definition utf8_byte (b : Z) : Prop := 0 ≤ b ≤ 0xF4 ∧ b ≠ 0xC0 ∧ b ≠ 0xC1.

(** ** Slicing facts *)

Lemma slice_index_le len i : (slice_index len i ≤ len)%nat.
Proof. unfold slice_index. repeat case_match; lia. Qed.

Lemma length_py_slice {A} (l : list A) start stop :
  length (py_slice (length l) l start stop) = slice_len (length l) start stop.
Proof.
  unfold py_slice, slice_len. rewrite length_take, length_drop.
  pose proof (slice_index_le (length l) stop). lia.
Qed.

Section Slicing.
Context {A : Type}.
Implicit Types (l : list A) (a : ndarray A).

Lemma slice_index_in_range len i :
  0 ≤ i ≤ Z.of_nat len → slice_index len i = Z.to_nat i.
Proof.
  intros Hi. unfold slice_index.
  repeat case_match; lia.
Qed.

Lemma slice_index_above len i :
  Z.of_nat len ≤ i → slice_index len i = len.
Proof.
  intros Hi. unfold slice_index.
  repeat case_match; lia.
Qed.

(** A slice starting inside the sequence keeps [min n (len - i)]
    elements. *)
Lemma slice_len_clamped len i n :
  0 ≤ i ≤ Z.of_nat len → 0 ≤ n →
  Z.of_nat (slice_len len i (i + n)) = Z.min n (Z.of_nat len - i).
Proof.
  intros Hi Hn. unfold slice_len.
  rewrite (slice_index_in_range len i) by lia.
  destruct (Z.le_gt_cases (i + n) (Z.of_nat len)) as [Hle|Hgt].
  - rewrite slice_index_in_range by lia. lia.
  - rewrite slice_index_above by lia. lia.
Qed.

Lemma getitem_shaped a r0 r1 c0 c1 :
  shaped a → shaped (getitem a r0 r1 c0 c1).
Proof.
  intros [Hr Hc]. unfold shaped, getitem; simpl. split.
  - rewrite length_fmap, <- Hr. apply length_py_slice.
  - apply Forall_fmap. unfold py_slice at 1.
    apply Forall_take, Forall_drop.
    eapply Forall_impl; [exact Hc|].
    intros r Hlen; simpl. rewrite <- Hlen. apply length_py_slice.
Qed.

Lemma extract_barcode_shaped a (b : Decoded) :
  shaped a → shaped (extract_barcode a b).
Proof. apply getitem_shaped. Qed.

Lemma extract_barcode_rows a (b : Decoded) :
  rows (extract_barcode a b)
  = slice_len (rows a) (top (rect b)) (top (rect b) + height (rect b)).
Proof. reflexivity. Qed.

Lemma extract_barcode_cols a (b : Decoded) :
  cols (extract_barcode a b)
  = slice_len (cols a) (left (rect b)) (left (rect b) + width (rect b)).
Proof. reflexivity. Qed.
End Slicing.

(** ** Region extraction *)

(** C10.  A rectangle whose origin lies in the image (0 <= x <= W,
    0 <= y <= H) and whose sides are not negative is cut at the image
    edges: [extract_barcode], a total function with no failing case, gives
    a well-formed sub-image of min(h, H - y) rows and min(w, W - x)
    columns. *)
Theorem extract_barcode_truncates {A} (image : ndarray A) (barcode : Decoded) :
  let x := left (rect barcode) in
  let y := top (rect barcode) in
  let w := width (rect barcode) in
  let h := height (rect barcode) in
  let H := Z.of_nat (rows image) in
  let W := Z.of_nat (cols image) in
  shaped image →
  0 ≤ x ≤ W → 0 ≤ y ≤ H → 0 ≤ w → 0 ≤ h →
  let sub := extract_barcode image barcode in
  shaped sub
  ∧ Z.of_nat (rows sub) = Z.min h (H - y)
  ∧ Z.of_nat (cols sub) = Z.min w (W - x)
  ∧ Z.of_nat (length (pixels sub)) = Z.min h (H - y)
  ∧ Forall (λ r, Z.of_nat (length r) = Z.min w (W - x)) (pixels sub).
Proof.
  intros x y w h H W Hsh Hx Hy Hw Hh sub.
  pose proof (extract_barcode_shaped image barcode Hsh) as [Hlen Hrow].
  assert (Hr : Z.of_nat (rows sub) = Z.min h (H - y)).
  { subst sub. rewrite extract_barcode_rows. by apply slice_len_clamped. }
  assert (Hc : Z.of_nat (cols sub) = Z.min w (W - x)).
  { subst sub. rewrite extract_barcode_cols. by apply slice_len_clamped. }
  split; [by apply extract_barcode_shaped|].
  split; [exact Hr|]. split; [exact Hc|]. split.
  - fold sub in Hlen. by rewrite Hlen.
  - fold sub in Hrow. eapply Forall_impl; [exact Hrow|].
    intros r Hlr; simpl in *. by rewrite Hlr.
Qed.

Lemma extract_barcode_truncates_witness :
  let image := sample_gray in
  let barcode := {| data := []; type := "EAN13";
                    rect := {| left := 3; top := 1; width := 5; height := 7 |} |} in
  extract_barcode image barcode
  = {| rows := 2; cols := 1; pixels := [[230]; [240]] |}
  ∧ Z.of_nat (rows (extract_barcode image barcode)) = Z.min 7 (3 - 1)
  ∧ Z.of_nat (cols (extract_barcode image barcode)) = Z.min 5 (4 - 3).
Proof.
  intros image barcode. split; [reflexivity|].
  assert (Hsh : shaped image) by (split; [reflexivity | repeat constructor]).
  destruct (extract_barcode_truncates image barcode Hsh) as (_ & Hr & Hc & _);
    simpl; try lia.
  split; [exact Hr | exact Hc].
Defined.

(** C6.  A rectangle lying within the image (x >= 0, y >= 0,
    x + w <= W, y + h <= H, with sides w, h >= 0) is extracted as a
    sub-image of exactly h rows and w columns. *)
Theorem extract_barcode_in_bounds {A} (image : ndarray A) (barcode : Decoded) :
  let x := left (rect barcode) in
  let y := top (rect barcode) in
  let w := width (rect barcode) in
  let h := height (rect barcode) in
  let H := Z.of_nat (rows image) in
  let W := Z.of_nat (cols image) in
  shaped image →
  0 ≤ x → 0 ≤ y → 0 ≤ w → 0 ≤ h → x + w ≤ W → y + h ≤ H →
  let sub := extract_barcode image barcode in
  shaped sub
  ∧ Z.of_nat (rows sub) = h
  ∧ Z.of_nat (cols sub) = w
  ∧ Z.of_nat (length (pixels sub)) = h
  ∧ Forall (λ r, Z.of_nat (length r) = w) (pixels sub).
Proof.
  intros x y w h H W Hsh Hx Hy Hw Hh HxW HyH sub.
  pose proof (extract_barcode_shaped image barcode Hsh) as [Hlen Hrow].
  assert (Hr : Z.of_nat (rows sub) = h).
  { subst sub. rewrite extract_barcode_rows.
    fold y h. rewrite slice_len_clamped by (fold H; lia). fold H. lia. }
  assert (Hc : Z.of_nat (cols sub) = w).
  { subst sub. rewrite extract_barcode_cols.
    fold x w. rewrite slice_len_clamped by (fold W; lia). fold W. lia. }
  split; [by apply extract_barcode_shaped|].
  split; [exact Hr|]. split; [exact Hc|]. split.
  - fold sub in Hlen. by rewrite Hlen.
  - fold sub in Hrow. eapply Forall_impl; [exact Hrow|].
    intros r Hlr; simpl in *. by rewrite Hlr.
Qed.

Lemma extract_barcode_in_bounds_witness :
  let image := sample_gray in
  let barcode := {| data := []; type := "EAN13";
                    rect := {| left := 1; top := 1; width := 2; height := 2 |} |} in
  extract_barcode image barcode
  = {| rows := 2; cols := 2; pixels := [[210; 25]; [190; 35]] |}
  ∧ Z.of_nat (rows (extract_barcode image barcode)) = 2
  ∧ Z.of_nat (cols (extract_barcode image barcode)) = 2.
Proof.
  intros image barcode. split; [reflexivity|].
  assert (Hsh : shaped image) by (split; [reflexivity | repeat constructor]).
  destruct (extract_barcode_in_bounds image barcode Hsh) as (_ & Hr & Hc & _);
    simpl; try lia.
  split; [exact Hr | exact Hc].
Defined.

(** ** Thresholding *)

Lemma below_succ k l :
  0 ≤ k → below (k + 1) l = below k l + Z.of_nat (length (filter (λ p, p = k) l)).
Proof.
  intros Hk. unfold below. induction l as [|p l IH]; [done|].
  rewrite !filter_cons. repeat case_decide; simpl in *; lia.
Qed.

Lemma below_0 l : below 0 l = 0.
Proof.
  unfold below. induction l as [|p l IH]; [done|].
  rewrite filter_cons. case_decide; simpl in *; lia.
Qed.

Lemma below_all l : Forall is_uint8 l → below 256 l = Z.of_nat (length l).
Proof.
  unfold below, is_uint8. induction 1 as [|p l Hp _ IH]; [done|].
  rewrite filter_cons. case_decide; simpl in *; lia.
Qed.

Lemma length_flat {A} (a : ndarray A) :
  shaped a → length (flat a) = (rows a * cols a)%nat.
Proof.
  intros [Hr Hc]. unfold flat. rewrite <- Hr. clear Hr.
  induction Hc as [|r l Hlen _ IH]; [done|].
  simpl. rewrite length_app. lia.
Qed.

Lemma all_pixels_flat {A} (P : A → Prop) (a : ndarray A) :
  all_pixels P a → Forall P (flat a).
Proof.
  unfold all_pixels, flat. induction 1 as [|r l Hr _ IH]; simpl; [done|].
  by apply Forall_app.
Qed.

Lemma two_level_uint8 p : two_level p → is_uint8 p.
Proof. unfold two_level, is_uint8. lia. Qed.

Lemma otsu_step_n1 h N S st i : n1 (otsu_step h N S st i) = n1 st + h i.
Proof. unfold otsu_step. repeat case_match; reflexivity. Qed.

(** A level becomes the best one only if it leaves pixels on both
    sides. *)
Lemma otsu_step_max_val h N S st i :
  max_val (otsu_step h N S st i) = max_val st
  ∨ (max_val (otsu_step h N S st i) = i ∧ 0 < N - (n1 st + h i)).
Proof.
  unfold otsu_step. repeat case_match; cbn [max_val]; auto.
  right. split; [reflexivity|]. lia.
Qed.

Section Otsu.
Variable src : ndarray Z.
Hypothesis src_shaped : shaped src.
Hypothesis src_uint8 : all_pixels is_uint8 src.

Let N := Z.of_nat (rows src * cols src).
Let S := sumZ (flat src).
Let scan (k : nat) := foldl (otsu_step (hist src) N S) otsu_init (seqZ 0 (Z.of_nat k)).

Lemma otsu_total : below 256 (flat src) = N.
Proof.
  rewrite below_all by by apply all_pixels_flat.
  subst N. by rewrite length_flat.
Qed.

(** After the levels below [k], [n1] counts the pixels below [k] and
    the best level found is at most 254. *)
Lemma otsu_scan_inv (k : nat) :
  (k ≤ 256)%nat →
  n1 (scan k) = below (Z.of_nat k) (flat src) ∧ 0 ≤ max_val (scan k) ≤ 254.
Proof.
  induction k as [|k IH]; intros Hk.
  - subst scan; simpl. rewrite below_0. lia.
  - destruct IH as [Hn Hm]; [lia|].
    subst scan; cbv beta in *. rewrite seqZ_S, foldl_snoc, Z.add_0_l.
    set (st := foldl _ _ _) in *.
    assert (Hn' : n1 st + hist src (Z.of_nat k) = below (Z.of_nat (Datatypes.S k)) (flat src)).
    { rewrite Nat2Z.inj_succ, <- Z.add_1_r, below_succ by lia.
      rewrite Hn. reflexivity. }
    split; [by rewrite otsu_step_n1|].
    destruct (otsu_step_max_val (hist src) N S st (Z.of_nat k)) as [->|[-> Hpos]];
      [done|].
    destruct (decide (k = 255%nat)) as [->|Hne]; [|lia].
    rewrite Hn' in Hpos. change (Z.of_nat 256) with 256 in Hpos.
    rewrite otsu_total in Hpos. lia.
Qed.

Lemma otsu_range : 0 ≤ getThreshVal_Otsu_8u src ≤ 254.
Proof. apply (otsu_scan_inv 256). lia. Qed.
End Otsu.

Lemma thresh_binary_two_level t p :
  0 ≤ t ≤ 254 → two_level p → thresh_pixel THRESH_BINARY t 255 p = p.
Proof.
  intros Ht [->| ->]; unfold thresh_pixel; simpl; case_match; lia.
Qed.

Lemma thresh_binary_levels t p : two_level (thresh_pixel THRESH_BINARY t 255 p).
Proof. unfold thresh_pixel, two_level; simpl. case_match; lia. Qed.

Lemma map_pixels_fix {A} (f : A → A) (a : ndarray A) :
  all_pixels (λ p, f p = p) a → map_pixels f a = a.
Proof.
  destruct a as [h w px]. unfold all_pixels, map_pixels; simpl. intros Hall.
  f_equal. induction Hall as [|r l Hr _ IH]; [done|].
  rewrite fmap_cons, IH. f_equal.
  clear -Hr. induction Hr as [|p r Hp _ IH]; [done|].
  by rewrite fmap_cons, Hp, IH.
Qed.

Lemma map_pixels_shaped {A B} (f : A → B) (a : ndarray A) :
  shaped a → shaped (map_pixels f a).
Proof.
  intros [Hr Hc]. split; simpl.
  - by rewrite length_fmap.
  - apply Forall_fmap. eapply Forall_impl; [exact Hc|].
    intros r Hlen; simpl. by rewrite length_fmap.
Qed.

Lemma map_pixels_all {A B} (f : A → B) (P : B → Prop) (a : ndarray A) :
  (∀ p, P (f p)) → all_pixels P (map_pixels f a).
Proof.
  intros HP. unfold all_pixels; simpl.
  apply Forall_fmap, Forall_true. intros r; simpl.
  apply Forall_fmap, Forall_true. intros p; apply HP.
Qed.

(** The call the script makes, unfolded. *)
Lemma threshold_binary_otsu a w :
  threshold (Mat8UC1 a) 0 255 (THRESH_BINARY + THRESH_OTSU) w
  = ([], Return (getThreshVal_Otsu_8u a,
                 Mat8UC1 (map_pixels
                            (thresh_pixel THRESH_BINARY (getThreshVal_Otsu_8u a) 255) a))).
Proof. reflexivity. Qed.

(** C5.  The Otsu binary threshold of the script leaves a two-level
    image as it is: applied to an image whose pixels are all 0 or 255 it
    returns the identical image. *)
Theorem threshold_otsu_idempotent (a : ndarray Z) (w : world) :
  shaped a → all_pixels two_level a →
  ∃ ret, threshold (Mat8UC1 a) 0 255 (THRESH_BINARY + THRESH_OTSU) w
         = ([], Return (ret, Mat8UC1 a)).
Proof.
  intros Hsh Hlv. exists (getThreshVal_Otsu_8u a).
  rewrite threshold_binary_otsu. do 4 f_equal.
  assert (Hu8 : all_pixels is_uint8 a).
  { eapply Forall_impl; [exact Hlv|]. intros r Hr.
    eapply Forall_impl; [exact Hr|]. apply two_level_uint8. }
  pose proof (otsu_range a Hsh Hu8) as Ht.
  apply map_pixels_fix.
  eapply Forall_impl; [exact Hlv|]. intros r Hr.
  eapply Forall_impl; [exact Hr|]. intros p Hp; simpl.
  by apply thresh_binary_two_level.
Qed.

Lemma threshold_otsu_idempotent_witness :
  let a := {| rows := 2; cols := 3; pixels := [[0; 255; 255]; [255; 0; 0]] |} in
  ∃ ret, threshold (Mat8UC1 a) 0 255 (THRESH_BINARY + THRESH_OTSU) empty_world
         = ([], Return (ret, Mat8UC1 a)).
Proof.
  intros a. apply (threshold_otsu_idempotent a empty_world).
  - split; [reflexivity | repeat constructor].
  - unfold all_pixels, two_level; simpl. repeat constructor; lia.
Defined.

(** ** Running computations *)

Lemma bind_Return {A B} (m : M A) (k : A → M B) w t a :
  m w = (t, Return a) → (m ≫= k) w = (t ++ (k a w).1, (k a w).2).
Proof.
  intros Hm. unfold mbind, M_bind, bind. rewrite Hm.
  by destruct (k a w).
Qed.

Lemma bind_Raise {A B} (m : M A) (k : A → M B) w t e :
  m w = (t, Raise e) → (m ≫= k) w = (t, Raise e).
Proof. intros Hm. unfold mbind, M_bind, bind. by rewrite Hm. Qed.

(** Two runs that agree on the first part and on what follows it
    agree. *)
Lemma bind_ext {A B} (m : M A) (k : A → M B) w w' :
  m w = m w' → (∀ a, k a w = k a w') → (m ≫= k) w = (m ≫= k) w'.
Proof.
  intros Hm Hk. unfold mbind, M_bind, bind. rewrite Hm.
  destruct (m w') as [t [a|e]]; [|done]. by rewrite Hk.
Qed.

Lemma imread_run filename flags w :
  imread filename flags w = ([EvImread filename flags], (imread filename flags w).2).
Proof. reflexivity. Qed.

Lemma imread_ext filename flags w w' :
  files w !! filename = files w' !! filename →
  imread filename flags w = imread filename flags w'.
Proof.
  intros Hf. unfold imread, mbind, M_bind, bind, emit, ask, mret, M_ret, pure.
  by rewrite Hf.
Qed.

Lemma loads_gray_not_empty w image_path g :
  loads_gray w image_path g → is_empty g = false.
Proof.
  unfold loads_gray, imread, mbind, M_bind, bind, emit, ask, mret, M_ret, pure.
  simpl. destruct (files w !! image_path) as [f|]; [|done].
  destruct (is_empty (grayscale f)) eqn:He; [done|].
  intros [= <-]. exact He.
Qed.

(** ** Preprocessing *)

Lemma blur_plane_shaped src kx ky : shaped (blur_plane src kx ky).
Proof.
  split; simpl.
  - by rewrite length_fmap, length_seq.
  - apply Forall_fmap, Forall_true. intros r; simpl.
    by rewrite length_fmap, length_seq.
Qed.

Lemma GaussianBlur_5x5 g w :
  is_empty g = false →
  GaussianBlur (Some (Mat8UC1 g)) (5, 5) 0 w
  = ([], Return (Mat8UC1 (blur_plane g kernel5 kernel5))).
Proof. intros He. unfold GaussianBlur. rewrite He. reflexivity. Qed.

Lemma preprocess_image_loaded self image_path w g :
  loads_gray w image_path g →
  preprocess_image self image_path w
  = ([EvImread image_path IMREAD_GRAYSCALE], Return (Mat8UC1 (preprocessed g))).
Proof.
  intros Hload. pose proof (loads_gray_not_empty _ _ _ Hload) as He.
  unfold preprocess_image.
  erewrite bind_Return; [|rewrite imread_run, Hload; reflexivity].
  erewrite bind_Return; [|by apply GaussianBlur_5x5].
  reflexivity.
Qed.

Lemma preprocess_image_unreadable self image_path w :
  unreadable w image_path →
  preprocess_image self image_path w
  = ([EvImread image_path IMREAD_GRAYSCALE], Raise (cv2_error "GaussianBlur")).
Proof.
  intros Hun. unfold preprocess_image.
  erewrite bind_Return; [|rewrite imread_run, Hun; reflexivity].
  reflexivity.
Qed.

(** C4.  For a path that loads as the grey image [g],
    [preprocess_image] returns an image of the shape of [g] whose pixels
    are each 0 or 255. *)
Theorem preprocess_image_two_level (self : BarcodeDetector) (image_path : string)
    (w : world) (g : ndarray Z) :
  loads_gray w image_path g →
  ∃ bw_im,
    preprocess_image self image_path w
    = ([EvImread image_path IMREAD_GRAYSCALE], Return (Mat8UC1 bw_im))
    ∧ shape bw_im = shape g
    ∧ shaped bw_im
    ∧ all_pixels two_level bw_im.
Proof.
  intros Hload. exists (preprocessed g). split; [by apply preprocess_image_loaded|].
  split; [reflexivity|]. split.
  - apply map_pixels_shaped, blur_plane_shaped.
  - apply map_pixels_all. intros p. apply thresh_binary_levels.
Qed.

Lemma preprocess_image_two_level_witness :
  ∃ bw_im,
    preprocess_image {| barcode_detector := tt |} "code128.png" sample_world
    = ([EvImread "code128.png" IMREAD_GRAYSCALE], Return (Mat8UC1 bw_im))
    ∧ shape bw_im = (3%nat, 4%nat)
    ∧ shaped bw_im
    ∧ all_pixels two_level bw_im.
Proof.
  apply (preprocess_image_two_level _ "code128.png" sample_world sample_gray).
  vm_compute. reflexivity.
Defined.

(** ** Decoding *)

Lemma show_preprocessed_image_run self im w :
  highgui w = true →
  show_preprocessed_image self im w
  = ([EvImshow "Preprocessed Image" im; EvWaitKey 0; EvDestroyAllWindows], Return tt).
Proof.
  intros Hg.
  unfold show_preprocessed_image, imshow, waitKey, destroyAllWindows,
    mbind, M_bind, bind, ask, emit.
  rewrite Hg. reflexivity.
Qed.

Lemma show_preprocessed_image_headless self im w :
  highgui w = false →
  show_preprocessed_image self im w = ([], Raise (cv2_error "imshow")).
Proof.
  intros Hg.
  unfold show_preprocessed_image, imshow, mbind, M_bind, bind, ask, raise.
  rewrite Hg. reflexivity.
Qed.

(** [decode] is bound neither in module [app] nor among the builtins. *)
Lemma resolve_decode : resolve app_globals "decode" = None.
Proof. vm_compute. reflexivity. Qed.

Lemma call_decode_unbound image w :
  call_global app_globals "decode" image w = ([], Raise (NameError "decode")).
Proof. unfold call_global. rewrite resolve_decode. reflexivity. Qed.

Lemma resolve_decode_bound f : resolve (globals_with f) "decode" = Some (PyFunction f).
Proof.
  unfold resolve, globals_with. by rewrite lookup_insert_eq.
Qed.

Lemma call_decode_bound f image w :
  call_global (globals_with f) "decode" image w = f image w.
Proof. unfold call_global. rewrite resolve_decode_bound. reflexivity. Qed.

(** The method up to the call of [decode], for a readable image and a
    working display. *)
Lemma decode_barcode_reaches_decode globals self image_path w tr bw :
  preprocess_image (detector self) image_path w = (tr, Return bw) →
  highgui w = true →
  decode_barcode globals self image_path w
  = let shown := EvImread image_path IMREAD_COLOR :: tr
                 ++ [EvImshow "Preprocessed Image" bw; EvWaitKey 0; EvDestroyAllWindows] in
    let rest :=
      (barcodes ← call_global globals "decode" bw;
       match barcodes with
       | barcode :: _ =>
           barcode_data ← bytes_decode_utf8 (data barcode);
           mret (Some barcode_data, Some (type barcode))
       | [] => mret (None, None)
       end) w in
    (shown ++ rest.1, rest.2).
Proof.
  intros Hpre Hg. unfold decode_barcode.
  erewrite bind_Return; [|apply imread_run].
  erewrite bind_Return; [|exact Hpre].
  erewrite bind_Return; [|by apply show_preprocessed_image_run].
  cbv zeta. simpl. rewrite <- !app_assoc. reflexivity.
Qed.

Lemma decode_barcode_preprocess_fails globals self image_path w tr e :
  preprocess_image (detector self) image_path w = (tr, Raise e) →
  decode_barcode globals self image_path w
  = (EvImread image_path IMREAD_COLOR :: tr, Raise e).
Proof.
  intros Hpre. unfold decode_barcode.
  erewrite bind_Return; [|apply imread_run].
  erewrite bind_Raise; [|exact Hpre].
  reflexivity.
Qed.

Lemma decode_barcode_unreadable globals self image_path w :
  unreadable w image_path →
  decode_barcode globals self image_path w
  = ([EvImread image_path IMREAD_COLOR; EvImread image_path IMREAD_GRAYSCALE],
     Raise (cv2_error "GaussianBlur")).
Proof.
  intros Hun. erewrite decode_barcode_preprocess_fails; [reflexivity|].
  by apply preprocess_image_unreadable.
Qed.

(** The method does not use the instance it is called on. *)
Lemma decode_barcode_self globals self self' image_path :
  decode_barcode globals self image_path = decode_barcode globals self' image_path.
Proof. reflexivity. Qed.

(** With [decode] bound to a function, the method returns the first of
    its results, or [(None, None)] when there is none. *)
Lemma decode_barcode_bound f self image_path w tr bw tf barcodes :
  preprocess_image (detector self) image_path w = (tr, Return bw) →
  highgui w = true →
  f bw w = (tf, Return barcodes) →
  (decode_barcode (globals_with f) self image_path w).2
  = match barcodes with
    | barcode :: _ =>
        if utf8_valid (data barcode)
        then Return (Some (str_of_bytes (data barcode)), Some (type barcode))
        else Raise UnicodeDecodeError
    | [] => Return (None, None)
    end.
Proof.
  intros Hpre Hg Hf.
  rewrite (decode_barcode_reaches_decode _ _ _ _ _ _ Hpre Hg). cbv zeta. simpl.
  erewrite bind_Return; [|rewrite call_decode_bound; exact Hf]. simpl.
  destruct barcodes as [|barcode rest]; [reflexivity|].
  unfold bytes_decode_utf8, mbind, M_bind, bind.
  destruct (utf8_valid (data barcode)); reflexivity.
Qed.

(** C3.  In module [app] as written the name [decode] is unbound: for a
    path whose preprocessing succeeds and with a working display,
    [decode_barcode] raises [NameError] at the decoding step and reaches
    none of its return statements. *)
Theorem decode_barcode_NameError (self : BarcodeDecoder) (image_path : string)
    (w : world) (tr : list event) (bw : mat) :
  preprocess_image (detector self) image_path w = (tr, Return bw) →
  highgui w = true →
  decode_barcode app_globals self image_path w
  = (EvImread image_path IMREAD_COLOR :: tr
     ++ [EvImshow "Preprocessed Image" bw; EvWaitKey 0; EvDestroyAllWindows],
     Raise (NameError "decode"))
  ∧ ∀ v, (decode_barcode app_globals self image_path w).2 ≠ Return v.
Proof.
  intros Hpre Hg.
  assert (Heq : decode_barcode app_globals self image_path w
    = (EvImread image_path IMREAD_COLOR :: tr
       ++ [EvImshow "Preprocessed Image" bw; EvWaitKey 0; EvDestroyAllWindows],
       Raise (NameError "decode"))).
  { rewrite (decode_barcode_reaches_decode _ _ _ _ _ _ Hpre Hg). cbv zeta.
    erewrite bind_Raise; [|apply call_decode_unbound].
    simpl. by rewrite app_nil_r. }
  split; [exact Heq|]. intros v. by rewrite Heq.
Qed.

Lemma decode_barcode_NameError_witness :
  (decode_barcode app_globals decoder_instance "code128.png" sample_world).2
  = Raise (NameError "decode").
Proof.
  destruct (decode_barcode_NameError decoder_instance "code128.png" sample_world
              [EvImread "code128.png" IMREAD_GRAYSCALE]
              (Mat8UC1 (preprocessed sample_gray))) as [Heq _].
  - vm_compute. reflexivity.
  - reflexivity.
  - rewrite Heq. reflexivity.
Defined.

(** C1.  The script run on a readable image of one barcode, with a
    working display: [decode_barcode] raises [NameError] where the payload
    and the symbology should come back.  Were [decode] bound to a decoder
    reporting that one symbol, the same call would return both. *)
Theorem decode_barcode_single_symbol_raises :
  (decode_barcode app_globals decoder_instance "code128.png" sample_world).2
  = Raise (NameError "decode")
  ∧ (decode_barcode (globals_with (decode_as [72; 105] "CODE128"))
       decoder_instance "code128.png" sample_world).2
    = Return (Some "Hi", Some "CODE128").
Proof. split; vm_compute; reflexivity. Qed.

(** C2.  The script run on a readable image without a barcode, with a
    working display: [decode_barcode] raises [NameError] where
    [(None, None)] should come back.  Were [decode] bound, the call would
    return [(None, None)] for no result and the first pair for
    several. *)
Theorem decode_barcode_no_symbol_raises :
  (decode_barcode app_globals decoder_instance "blank.png" sample_world).2
  = Raise (NameError "decode")
  ∧ (decode_barcode (globals_with (decode_to [])) decoder_instance "blank.png"
       sample_world).2
    = Return (None, None)
  ∧ (decode_barcode
       (globals_with (decode_to [symbol [49; 50] "EAN8"; symbol [72; 105] "CODE128"]))
       decoder_instance "code128.png" sample_world).2
    = Return (Some "12", Some "EAN8").
Proof. repeat split; vm_compute; reflexivity. Qed.

(** ** The main function *)

Lemma BarcodeDecoder_init_run w :
  barcode_module w = true → BarcodeDecoder_init w = ([], Return decoder_instance).
Proof.
  intros Hb.
  unfold BarcodeDecoder_init, BarcodeDetector_init, barcode_BarcodeDetector,
    mbind, M_bind, bind, ask.
  rewrite Hb. reflexivity.
Qed.

Lemma BarcodeDecoder_init_fails w :
  barcode_module w = false →
  BarcodeDecoder_init w = ([], Raise (AttributeError "barcode_BarcodeDetector")).
Proof.
  intros Hb.
  unfold BarcodeDecoder_init, BarcodeDetector_init, barcode_BarcodeDetector,
    mbind, M_bind, bind, ask.
  rewrite Hb. reflexivity.
Qed.

Lemma main_no_detector proc globals w :
  barcode_module w = false →
  main proc globals w = ([], Raise (AttributeError "barcode_BarcodeDetector")).
Proof.
  intros Hb. unfold main.
  erewrite bind_Raise; [reflexivity|]. by apply BarcodeDecoder_init_fails.
Qed.

(** An exception of [decode_barcode] leaves [main] as it is. *)
Lemma main_raise proc globals w tr e :
  barcode_module w = true →
  decode_barcode globals decoder_instance "your_image_path.jpg" w = (tr, Raise e) →
  main proc globals w = (tr, Raise e).
Proof.
  intros Hb Hd. unfold main.
  erewrite bind_Return; [|by apply BarcodeDecoder_init_run].
  cbv zeta. erewrite bind_Raise; [|exact Hd]. reflexivity.
Qed.


Lemma truthy_false (v : option string) : truthy v = false ↔ v = None ∨ v = Some "".
Proof.
  destruct v as [s|]; simpl.
  - destruct (String.eqb_spec s "") as [->|Hne]; simpl.
    + split; [by right | done].
    + split; [done | intros [?|[= ?]]; done].
  - split; [by left | done].
Qed.



Lemma imread_gray_cases w image_path :
  unreadable w image_path ∨ ∃ g, loads_gray w image_path g.
Proof.
  unfold unreadable, loads_gray, imread, mbind, M_bind, bind, emit, ask, mret, M_ret, pure.
  simpl. destruct (files w !! image_path) as [f|]; [|by left].
  destruct (is_empty (grayscale f)); [by left | right; by eexists].
Qed.

(** Every run of the script as written ends in an exception, prints
    nothing and reads no file but the one of the fixed path. *)
Lemma run_script_outcome proc w :
  ∃ e, (run_script proc w).2 = Raise e
       ∧ printed (run_script proc w).1 = []
       ∧ Forall (λ f, f = "your_image_path.jpg") (files_read (run_script proc w).1).
Proof.
  unfold run_script.
  destruct (barcode_module w) eqn:Hb; [|rewrite main_no_detector by done; by eexists].
  destruct (imread_gray_cases w "your_image_path.jpg") as [Hun|[g Hload]].
  { erewrite main_raise; [|done|by apply decode_barcode_unreadable].
    eexists; split; [reflexivity|]. split; [reflexivity|]. by repeat constructor. }
  pose proof (preprocess_image_loaded (detector decoder_instance) _ _ _ Hload) as Hpre.
  destruct (highgui w) eqn:Hg.
  - erewrite main_raise; [|done|].
    2:{ rewrite (decode_barcode_reaches_decode _ _ _ _ _ _ Hpre Hg). cbv zeta.
        erewrite bind_Raise; [|apply call_decode_unbound]. reflexivity. }
    eexists; split; [reflexivity|]. split; [reflexivity|]. by repeat constructor.
  - erewrite main_raise; [|done|].
    2:{ unfold decode_barcode.
        erewrite bind_Return; [|apply imread_run].
        erewrite bind_Return; [|exact Hpre].
        erewrite bind_Raise; [|by apply show_preprocessed_image_headless].
        reflexivity. }
    eexists; split; [reflexivity|]. split; [reflexivity|]. by repeat constructor.
Qed.

Lemma GaussianBlur_ext src ksize sigmaX w w' :
  GaussianBlur src ksize sigmaX w = GaussianBlur src ksize sigmaX w'.
Proof. unfold GaussianBlur. repeat case_match; reflexivity. Qed.

Lemma threshold_ext src thresh maxval type w w' :
  threshold src thresh maxval type w = threshold src thresh maxval type w'.
Proof. unfold threshold. repeat case_match; reflexivity. Qed.

Lemma preprocess_image_ext self image_path w w' :
  files w !! image_path = files w' !! image_path →
  preprocess_image self image_path w = preprocess_image self image_path w'.
Proof.
  intros Hf. unfold preprocess_image.
  apply bind_ext; [by apply imread_ext|]. intros im.
  apply bind_ext; [apply GaussianBlur_ext|]. intros blur.
  apply bind_ext; [apply threshold_ext|]. by intros [ret bw_im].
Qed.

Lemma show_preprocessed_image_ext self im w w' :
  highgui w = highgui w' →
  show_preprocessed_image self im w = show_preprocessed_image self im w'.
Proof.
  intros Hg.
  unfold show_preprocessed_image, imshow, waitKey, destroyAllWindows,
    mbind, M_bind, bind, ask, emit, raise.
  rewrite Hg. by destruct (highgui w').
Qed.

Lemma decode_barcode_app_ext self image_path w w' :
  files w !! image_path = files w' !! image_path →
  highgui w = highgui w' →
  decode_barcode app_globals self image_path w
  = decode_barcode app_globals self image_path w'.
Proof.
  intros Hf Hg. unfold decode_barcode.
  apply bind_ext; [by apply imread_ext|]. intros image.
  apply bind_ext; [by apply preprocess_image_ext|]. intros preprocessed_image.
  apply bind_ext; [by apply show_preprocessed_image_ext|]. intros _.
  apply bind_ext; [by rewrite !call_decode_unbound|]. intros barcodes.
  destruct barcodes; [reflexivity|].
  unfold bytes_decode_utf8, mbind, M_bind, bind.
  by destruct (utf8_valid _).
Qed.

Lemma run_script_ext proc proc' w w' :
  files w !! "your_image_path.jpg" = files w' !! "your_image_path.jpg" →
  highgui w = highgui w' →
  barcode_module w = barcode_module w' →
  run_script proc w = run_script proc' w'.
Proof.
  intros Hf Hg Hb. unfold run_script, main.
  apply bind_ext.
  { unfold BarcodeDecoder_init, BarcodeDetector_init, barcode_BarcodeDetector,
      mbind, M_bind, bind, ask.
    rewrite Hb. by destruct (barcode_module w'). }
  intros barcode_decoder. cbv zeta.
  apply bind_ext; [by apply decode_barcode_app_ext|].
  intros [barcode_data barcode_type]. by destruct (truthy barcode_data).
Qed.

Lemma bind_trace_prefix {A B} (m : M A) (k : A → M B) w :
  ∃ rest, ((m ≫= k) w).1 = (m w).1 ++ rest.
Proof.
  unfold mbind, M_bind, bind. destruct (m w) as [t [a|e]].
  - destruct (k a w). by eexists.
  - exists []. by rewrite app_nil_r.
Qed.

(** The first thing [main] does once the decoder exists is what
    [decode_barcode] does first with its argument: read the fixed path. *)
Lemma main_reads_fixed_path proc globals w :
  barcode_module w = true →
  ∃ rest, (main proc globals w).1
          = EvImread "your_image_path.jpg" IMREAD_COLOR :: rest.
Proof.
  intros Hb. unfold main.
  erewrite bind_Return; [|by apply BarcodeDecoder_init_run].
  cbv zeta. simpl.
  lazymatch goal with
  | |- ∃ rest, ((?m ≫= ?k) w).1 = _ => destruct (bind_trace_prefix m k w) as [r1 ->]
  end.
  unfold decode_barcode.
  lazymatch goal with
  | |- ∃ rest, ((?m ≫= ?k) w).1 ++ _ = _ => destruct (bind_trace_prefix m k w) as [r2 ->]
  end.
  simpl. by eexists.
Qed.



(** C8.  The path [main] hands to [decode_barcode] is the constant
    "your_image_path.jpg" whatever the arguments and the environment of
    the process: [main] does the same for any two processes, the script
    does the same in any two surroundings that agree on that one path, it
    reads no other file, and its first action once the decoder exists is
    to read that path. *)
Theorem main_path_is_constant (proc1 proc2 : process) :
  (∀ globals w, main proc1 globals w = main proc2 globals w)
  ∧ (∀ w w',
      files w !! "your_image_path.jpg" = files w' !! "your_image_path.jpg" →
      highgui w = highgui w' →
      barcode_module w = barcode_module w' →
      run_script proc1 w = run_script proc2 w')
  ∧ (∀ w, Forall (λ f, f = "your_image_path.jpg") (files_read (run_script proc1 w).1))
  ∧ (∀ globals w,
      barcode_module w = true →
      ∃ rest, (main proc1 globals w).1
              = EvImread "your_image_path.jpg" IMREAD_COLOR :: rest).
Proof.
  split; [|split; [|split]].
  - reflexivity.
  - intros. by apply run_script_ext.
  - intros w. by destruct (run_script_outcome proc1 w) as (e & _ & _ & Hr).
  - intros. by apply main_reads_fixed_path.
Qed.

Lemma main_path_is_constant_witness :
  run_script sample_process sample_world = run_script other_process other_world
  ∧ files_read (run_script other_process other_world).1
    = ["your_image_path.jpg"; "your_image_path.jpg"].
Proof.
  destruct (main_path_is_constant sample_process other_process) as (_ & H2 & _).
  split.
  - apply (H2 sample_world other_world); vm_compute; reflexivity.
  - vm_compute. reflexivity.
Defined.

(** ** More on region extraction *)

Lemma lookup_py_slice {A} (len : nat) (l : list A) start stop (i : nat) :
  (i < slice_len len start stop)%nat →
  py_slice len l start stop !! i = l !! (slice_index len start + i)%nat.
Proof.
  intros Hi. unfold py_slice, slice_len in *.
  rewrite lookup_take_lt by done. apply lookup_drop.
Qed.

Lemma py_slice_nil {A} (len : nat) (l : list A) start stop :
  slice_len len start stop = 0%nat → py_slice len l start stop = [].
Proof. unfold py_slice, slice_len. intros ->. apply take_0. Qed.

(** Where a pixel of a slice comes from. *)
Lemma getitem_pixel {A} (a : ndarray A) r0 r1 c0 c1 (r c : nat) :
  (r < slice_len (rows a) r0 r1)%nat →
  (c < slice_len (cols a) c0 c1)%nat →
  pixel_at (getitem a r0 r1 c0 c1) r c
  = pixel_at a (slice_index (rows a) r0 + r) (slice_index (cols a) c0 + c).
Proof.
  intros Hr Hc. unfold pixel_at, getitem; simpl.
  rewrite list_lookup_fmap, lookup_py_slice by done.
  destruct (pixels a !! _) as [row|]; simpl; [|done].
  by apply lookup_py_slice.
Qed.

Lemma py_slice_fmap {A B} (f : A → B) (len : nat) (l : list A) start stop :
  py_slice len (f <$> l) start stop = f <$> py_slice len l start stop.
Proof. unfold py_slice. by rewrite fmap_take, fmap_drop. Qed.

(** Slicing a slice. *)
Lemma py_slice_py_slice {A} (len : nat) (l : list A) i n j m :
  0 ≤ i → 0 ≤ n → i + n ≤ Z.of_nat len →
  0 ≤ j → 0 ≤ m → j + m ≤ n →
  py_slice (slice_len len i (i + n)) (py_slice len l i (i + n)) j (j + m)
  = py_slice len l (i + j) (i + j + m).
Proof.
  intros Hi Hn Hin Hj Hm Hjm.
  assert (Hlen : slice_len len i (i + n) = Z.to_nat n).
  { unfold slice_len. rewrite !slice_index_in_range by lia. lia. }
  rewrite Hlen. unfold py_slice.
  rewrite !(slice_index_in_range (Z.to_nat n)) by lia.
  rewrite !(slice_index_in_range len) by lia.
  apply list_eq. intros k.
  destruct (decide (k < Z.to_nat (j + m) - Z.to_nat j)%nat) as [Hk|Hk].
  - rewrite !lookup_take_lt by lia. rewrite !lookup_drop.
    rewrite lookup_take_lt by lia. rewrite lookup_drop. f_equal. lia.
  - rewrite !lookup_take_ge by lia. done.
Qed.

(** X1.  Inside the image, extraction copies: for an origin in the image
    and sides that are not negative, the pixel at row [r] and column [c]
    of the sub-image is the pixel at row [y + r] and column [x + c] of
    the image. *)
Theorem extract_barcode_pixels {A} (image : ndarray A) (barcode : Decoded) (r c : nat) :
  let x := left (rect barcode) in
  let y := top (rect barcode) in
  let w := width (rect barcode) in
  let h := height (rect barcode) in
  let sub := extract_barcode image barcode in
  0 ≤ x ≤ Z.of_nat (cols image) → 0 ≤ y ≤ Z.of_nat (rows image) →
  0 ≤ w → 0 ≤ h →
  (r < rows sub)%nat → (c < cols sub)%nat →
  pixel_at sub r c = pixel_at image (Z.to_nat y + r) (Z.to_nat x + c).
Proof.
  intros x y w h sub Hx Hy Hw Hh Hr Hc. subst sub.
  unfold extract_barcode in *. simpl in Hr, Hc.
  rewrite getitem_pixel by done.
  by rewrite !slice_index_in_range by done.
Qed.

Lemma extract_barcode_pixels_witness :
  let barcode := {| data := []; type := "EAN13";
                    rect := {| left := 1; top := 1; width := 9; height := 9 |} |} in
  pixel_at (extract_barcode sample_gray barcode) 1 2 = Some 240
  ∧ pixel_at sample_gray 2 3 = Some 240.
Proof.
  intros barcode. split; [|reflexivity].
  rewrite (extract_barcode_pixels sample_gray barcode 1 2);
    [reflexivity | first [simpl; lia | vm_compute; lia] ..].
Defined.

(** X2.  A rectangle that starts at the origin and covers the image or
    more gives the image back. *)
Theorem extract_barcode_whole_image {A} (image : ndarray A) (barcode : Decoded) :
  shaped image →
  left (rect barcode) = 0 → top (rect barcode) = 0 →
  Z.of_nat (cols image) ≤ width (rect barcode) →
  Z.of_nat (rows image) ≤ height (rect barcode) →
  extract_barcode image barcode = image.
Proof.
  intros [Hlen Hrows] Hx Hy Hw Hh. unfold extract_barcode. rewrite Hx, Hy.
  destruct image as [H W px]; simpl in *. unfold getitem, py_slice, slice_len; simpl.
  rewrite (slice_index_in_range H 0), (slice_index_in_range W 0) by lia.
  rewrite (slice_index_above H), (slice_index_above W) by lia.
  rewrite !Nat.sub_0_r. f_equal. simpl.
  change (Z.to_nat 0) with 0%nat. rewrite drop_0, take_ge by lia.
  clear -Hrows. induction Hrows as [|row l Hrow _ IH]; [done|].
  rewrite fmap_cons, IH, drop_0, take_ge by lia. done.
Qed.

Lemma extract_barcode_whole_image_witness :
  extract_barcode sample_gray (symbol [] "EAN13") = sample_gray.
Proof.
  apply extract_barcode_whole_image.
  - split; [reflexivity | repeat constructor].
  - reflexivity.
  - reflexivity.
  - simpl. lia.
  - simpl. lia.
Defined.

(** X3.  Extraction composes: cutting [inner] out of the sub-image cut
    by [outer] is cutting, out of the image, [inner] moved by the origin
    of [outer], when [outer] lies within the image and [inner] within
    [outer]. *)
Theorem extract_barcode_nested {A} (image : ndarray A) (outer inner : Decoded) :
  let x := left (rect outer) in
  let y := top (rect outer) in
  let w := width (rect outer) in
  let h := height (rect outer) in
  let x' := left (rect inner) in
  let y' := top (rect inner) in
  let w' := width (rect inner) in
  let h' := height (rect inner) in
  0 ≤ x → 0 ≤ y → 0 ≤ w → 0 ≤ h →
  x + w ≤ Z.of_nat (cols image) → y + h ≤ Z.of_nat (rows image) →
  0 ≤ x' → 0 ≤ y' → 0 ≤ w' → 0 ≤ h' → x' + w' ≤ w → y' + h' ≤ h →
  extract_barcode (extract_barcode image outer) inner
  = extract_barcode image (nested outer inner).
Proof.
  intros x y w h x' y' w' h' Hx Hy Hw Hh HxW HyH Hx' Hy' Hw' Hh' Hxw Hyh.
  unfold extract_barcode, nested. cbn [rect left top width height].
  fold x y w h x' y' w' h'. unfold getitem. cbn [rows cols pixels].
  assert (Hrows : slice_len (rows image) y (y + h) = Z.to_nat h).
  { unfold slice_len. rewrite !slice_index_in_range by lia. lia. }
  assert (Hcols : slice_len (cols image) x (x + w) = Z.to_nat w).
  { unfold slice_len. rewrite !slice_index_in_range by lia. lia. }
  f_equal.
  - rewrite Hrows. unfold slice_len. rewrite !slice_index_in_range by lia. lia.
  - rewrite Hcols. unfold slice_len. rewrite !slice_index_in_range by lia. lia.
  - rewrite !py_slice_fmap, py_slice_py_slice, <- list_fmap_compose by lia.
    apply list_fmap_ext. intros _ row _; simpl.
    by apply py_slice_py_slice.
Qed.

Lemma extract_barcode_nested_witness :
  let outer := {| data := []; type := "EAN13";
                  rect := {| left := 1; top := 0; width := 3; height := 3 |} |} in
  let inner := {| data := []; type := "EAN13";
                  rect := {| left := 1; top := 1; width := 2; height := 1 |} |} in
  extract_barcode (extract_barcode sample_gray outer) inner
  = {| rows := 1; cols := 2; pixels := [[25; 230]] |}
  ∧ extract_barcode sample_gray (nested outer inner)
    = {| rows := 1; cols := 2; pixels := [[25; 230]] |}.
Proof.
  intros outer inner.
  rewrite (extract_barcode_nested sample_gray outer inner); simpl; try lia.
  split; reflexivity.
Defined.

Lemma slice_index_negative len i :
  - Z.of_nat len ≤ i < 0 → slice_index len i = Z.to_nat (Z.of_nat len + i).
Proof. intros Hi. unfold slice_index. repeat case_match; lia. Qed.

(** A slice with no rows or no columns holds no pixel. *)
Lemma getitem_empty {A} (a : ndarray A) r0 r1 c0 c1 :
  slice_len (rows a) r0 r1 = 0%nat ∨ slice_len (cols a) c0 c1 = 0%nat →
  is_empty (getitem a r0 r1 c0 c1) = true ∧ flat (getitem a r0 r1 c0 c1) = [].
Proof.
  intros [Hr|Hc]; unfold is_empty, flat, getitem; simpl.
  - rewrite Hr. by rewrite py_slice_nil.
  - rewrite Hc, orb_true_r. split; [done|].
    induction (py_slice (rows a) (pixels a) r0 r1) as [|row l IH]; [done|].
    rewrite fmap_cons. simpl. by rewrite py_slice_nil, IH.
Qed.

(** X4.  A rectangle whose origin lies at or beyond the right or the
    bottom edge gives an empty sub-image, whatever its sides; nothing is
    raised. *)
Theorem extract_barcode_origin_outside {A} (image : ndarray A) (barcode : Decoded) :
  Z.of_nat (cols image) ≤ left (rect barcode)
  ∨ Z.of_nat (rows image) ≤ top (rect barcode) →
  is_empty (extract_barcode image barcode) = true
  ∧ flat (extract_barcode image barcode) = [].
Proof.
  intros Hout. apply getitem_empty. unfold slice_len.
  destruct Hout as [Hx|Hy]; [right|left].
  - rewrite (slice_index_above _ (left (rect barcode))) by done.
    pose proof (slice_index_le (cols image)
                  (left (rect barcode) + width (rect barcode))). lia.
  - rewrite (slice_index_above _ (top (rect barcode))) by done.
    pose proof (slice_index_le (rows image)
                  (top (rect barcode) + height (rect barcode))). lia.
Qed.

Lemma extract_barcode_origin_outside_witness :
  let barcode := {| data := []; type := "EAN13";
                    rect := {| left := 4; top := 0; width := 2; height := 2 |} |} in
  extract_barcode sample_gray barcode = {| rows := 2; cols := 0; pixels := [[]; []] |}
  ∧ flat (extract_barcode sample_gray barcode) = [].
Proof.
  intros barcode. split; [reflexivity|].
  apply (extract_barcode_origin_outside sample_gray barcode).
  left. simpl. lia.
Defined.

(** X5.  A rectangle that sticks out of the image to the left or to the
    top is not cut down to its visible part: a negative origin counts from
    the opposite edge, and with the far side of the rectangle inside the
    image the sub-image is empty. *)
Theorem extract_barcode_straddles_edge {A} (image : ndarray A) (barcode : Decoded) :
  let x := left (rect barcode) in
  let y := top (rect barcode) in
  let w := width (rect barcode) in
  let h := height (rect barcode) in
  let H := Z.of_nat (rows image) in
  let W := Z.of_nat (cols image) in
  (- W ≤ x < 0 ∧ 0 ≤ x + w ∧ w ≤ W) ∨ (- H ≤ y < 0 ∧ 0 ≤ y + h ∧ h ≤ H) →
  is_empty (extract_barcode image barcode) = true
  ∧ flat (extract_barcode image barcode) = [].
Proof.
  intros x y w h H W Hedge. apply getitem_empty. unfold slice_len.
  fold x y w h. destruct Hedge as [(Hx & Hxw & Hw)|(Hy & Hyh & Hh)]; [right|left].
  - rewrite (slice_index_negative _ x), (slice_index_in_range _ (x + w)) by (fold W; lia).
    fold W. lia.
  - rewrite (slice_index_negative _ y), (slice_index_in_range _ (y + h)) by (fold H; lia).
    fold H. lia.
Qed.

Lemma extract_barcode_straddles_edge_witness :
  let barcode := {| data := []; type := "EAN13";
                    rect := {| left := -1; top := 0; width := 3; height := 3 |} |} in
  extract_barcode sample_gray barcode
  = {| rows := 3; cols := 0; pixels := [[]; []; []] |}
  ∧ flat (extract_barcode sample_gray barcode) = [].
Proof.
  intros barcode. split; [reflexivity|].
  apply (extract_barcode_straddles_edge sample_gray barcode).
  left. simpl. lia.
Defined.

(** X6.  A rectangle lying wholly to the left of the image, by less than
    the width of the image, is taken from the right edge: it has its own
    width, and its column [c] is column [W + x + c] of the image. *)
Theorem extract_barcode_wraps_around {A} (image : ndarray A) (barcode : Decoded)
    (r c : nat) :
  let x := left (rect barcode) in
  let y := top (rect barcode) in
  let w := width (rect barcode) in
  let h := height (rect barcode) in
  let H := Z.of_nat (rows image) in
  let W := Z.of_nat (cols image) in
  let sub := extract_barcode image barcode in
  - W ≤ x → 0 ≤ w → x + w < 0 →
  0 ≤ y ≤ H → 0 ≤ h →
  (r < rows sub)%nat → (c < Z.to_nat w)%nat →
  cols sub = Z.to_nat w
  ∧ pixel_at sub r c = pixel_at image (Z.to_nat y + r) (Z.to_nat (W + x) + c).
Proof.
  intros x y w h H W sub Hx Hw Hxw Hy Hh Hr Hc. subst sub.
  unfold extract_barcode in *. simpl in Hr. fold x y w h in Hr |- *.
  assert (Hcols : slice_len (cols image) x (x + w) = Z.to_nat w).
  { unfold slice_len. rewrite !slice_index_negative by (fold W; lia). fold W. lia. }
  split; [exact Hcols|].
  rewrite getitem_pixel by (done || by rewrite Hcols).
  rewrite slice_index_in_range by done.
  by rewrite slice_index_negative by (fold W; lia).
Qed.

Lemma extract_barcode_wraps_around_witness :
  let barcode := {| data := []; type := "EAN13";
                    rect := {| left := -3; top := 0; width := 2; height := 1 |} |} in
  extract_barcode sample_gray barcode = {| rows := 1; cols := 2; pixels := [[200; 30]] |}
  ∧ pixel_at (extract_barcode sample_gray barcode) 0 1 = pixel_at sample_gray 0 2.
Proof.
  intros barcode. split; [reflexivity|].
  destruct (extract_barcode_wraps_around sample_gray barcode 0 1) as [_ Hp];
    [first [simpl; lia | vm_compute; lia] ..|].
  exact Hp.
Defined.

(** ** More on decoding *)



(** X7.  Without window support the method fails at the preview: for a
    readable image it raises [cv2.error] from [imshow] after the two reads
    of the file, whatever [decode] is bound to. *)
Theorem decode_barcode_headless (globals : gmap string pyobj) (self : BarcodeDecoder)
    (image_path : string) (w : world) (g : ndarray Z) :
  loads_gray w image_path g →
  highgui w = false →
  decode_barcode globals self image_path w
  = ([EvImread image_path IMREAD_COLOR; EvImread image_path IMREAD_GRAYSCALE],
     Raise (cv2_error "imshow")).
Proof.
  intros Hload Hg. unfold decode_barcode.
  erewrite bind_Return; [|apply imread_run].
  erewrite bind_Return; [|by apply preprocess_image_loaded].
  erewrite bind_Raise; [|by apply show_preprocessed_image_headless].
  reflexivity.
Qed.

Lemma decode_barcode_headless_witness :
  decode_barcode (globals_with (decode_as [72; 105] "CODE128")) decoder_instance
    "code128.png" headless_world
  = ([EvImread "code128.png" IMREAD_COLOR; EvImread "code128.png" IMREAD_GRAYSCALE],
     Raise (cv2_error "imshow")).
Proof.
  apply (decode_barcode_headless _ _ _ _ sample_gray).
  - vm_compute. reflexivity.
  - reflexivity.
Defined.

(** X8.  With an OpenCV that has no [barcode_BarcodeDetector], building
    the decoder fails: [main] raises [AttributeError] before it reads a
    file or prints a line. *)
Theorem main_detector_missing (proc : process) (globals : gmap string pyobj) (w : world) :
  barcode_module w = false →
  (main proc globals w).2 = Raise (AttributeError "barcode_BarcodeDetector")
  ∧ files_read (main proc globals w).1 = []
  ∧ printed (main proc globals w).1 = [].
Proof. intros Hb. by rewrite main_no_detector. Qed.

Lemma main_detector_missing_witness :
  (main sample_process (globals_with (decode_as [72; 105] "CODE128")) bare_world).2
  = Raise (AttributeError "barcode_BarcodeDetector").
Proof.
  apply (main_detector_missing sample_process _ bare_world). reflexivity.
Defined.











(** ** More on the main function *)





(** ** The whole script *)

(** X15.  The script as written never succeeds: every run ends in an
    exception and prints nothing.  The exception is [AttributeError]
    without the barcode detector, else [cv2.error] from [GaussianBlur] for
    an unreadable file, else [cv2.error] from [imshow] without window
    support, else [NameError] for [decode]. *)
Theorem script_always_fails (proc : process) (w : world) :
  (run_script proc w).2 = Raise (script_failure w)
  ∧ printed (run_script proc w).1 = []
  ∧ ∀ v, (run_script proc w).2 ≠ Return v.
Proof.
  assert (Hgoal : (run_script proc w).2 = Raise (script_failure w)
                  ∧ printed (run_script proc w).1 = []).
  { unfold run_script, script_failure.
    destruct (barcode_module w) eqn:Hb; [|by rewrite main_no_detector].
    destruct (imread_gray_cases w "your_image_path.jpg") as [Hun|[g Hload]].
    { erewrite main_raise; [|done|by apply decode_barcode_unreadable].
      unfold unreadable in Hun. by rewrite Hun. }
    pose proof (preprocess_image_loaded (detector decoder_instance) _ _ _ Hload) as Hpre.
    unfold loads_gray in Hload. rewrite Hload.
    destruct (highgui w) eqn:Hg.
    - erewrite main_raise; [|done|].
      2:{ rewrite (decode_barcode_reaches_decode _ _ _ _ _ _ Hpre Hg). cbv zeta.
          erewrite bind_Raise; [|apply call_decode_unbound]. reflexivity. }
      done.
    - erewrite main_raise; [|done|].
      2:{ unfold decode_barcode.
          erewrite bind_Return; [|apply imread_run].
          erewrite bind_Return; [|exact Hpre].
          erewrite bind_Raise; [|by apply show_preprocessed_image_headless].
          reflexivity. }
      done. }
  destruct Hgoal as [Hr Hp]. split; [exact Hr|]. split; [exact Hp|].
  intros v. by rewrite Hr.
Qed.

(** ** What the method reads *)

Lemma imread_value filename flags w : ∃ v, (imread filename flags w).2 = Return v.
Proof. by eexists. Qed.

(** X16.  [decode_barcode] reads the file twice before anything else,
    in colour and then in grey, whatever follows. *)
Theorem decode_barcode_reads_twice (globals : gmap string pyobj) (self : BarcodeDecoder)
    (image_path : string) (w : world) :
  ∃ rest, (decode_barcode globals self image_path w).1
          = EvImread image_path IMREAD_COLOR
            :: EvImread image_path IMREAD_GRAYSCALE :: rest.
Proof.
  unfold decode_barcode.
  erewrite bind_Return; [|apply imread_run]. simpl.
  lazymatch goal with
  | |- ∃ rest, _ :: ((?m ≫= ?k) w).1 = _ => destruct (bind_trace_prefix m k w) as [r1 ->]
  end.
  unfold preprocess_image.
  lazymatch goal with
  | |- ∃ rest, _ :: ((?m ≫= ?k) w).1 ++ _ = _ =>
      destruct (bind_trace_prefix m k w) as [r2 ->]
  end.
  simpl. by eexists.
Qed.

(** Two runs whose first parts leave the same trace and both return,
    and whose continuations do not look at the value, agree. *)
Lemma bind_ext_unused {A B} (m : M A) (k : A → M B) w w' :
  (m w).1 = (m w').1 →
  (∃ a, (m w).2 = Return a) → (∃ a', (m w').2 = Return a') →
  (∀ a a', k a w = k a' w') →
  (m ≫= k) w = (m ≫= k) w'.
Proof.
  intros Ht [a Ha] [a' Ha'] Hk. unfold mbind, M_bind, bind.
  destruct (m w) as [t r], (m w') as [t' r']. simpl in *. subst.
  by rewrite (Hk a a').
Qed.

Lemma preprocess_image_gray_ext self image_path w w' :
  (imread image_path IMREAD_GRAYSCALE w).2 = (imread image_path IMREAD_GRAYSCALE w').2 →
  preprocess_image self image_path w = preprocess_image self image_path w'.
Proof.
  intros Hg. unfold preprocess_image.
  apply bind_ext; [by rewrite (imread_run _ _ w), (imread_run _ _ w'), Hg|].
  intros im.
  apply bind_ext; [apply GaussianBlur_ext|]. intros blur.
  apply bind_ext; [apply threshold_ext|]. by intros [ret bw_im].
Qed.

(** X17.  The colour image loaded first is never used: two runs of
    [decode_barcode] in surroundings that give the same grey image for the
    path, the same display and the same behaviour of [decode] do the same,
    whatever the colour images are. *)
Theorem decode_barcode_ignores_colour (globals : gmap string pyobj)
    (self : BarcodeDecoder) (image_path : string) (w w' : world) :
  (imread image_path IMREAD_GRAYSCALE w).2 = (imread image_path IMREAD_GRAYSCALE w').2 →
  highgui w = highgui w' →
  (∀ image, call_global globals "decode" image w = call_global globals "decode" image w') →
  decode_barcode globals self image_path w = decode_barcode globals self image_path w'.
Proof.
  intros Hgray Hg Hcall. unfold decode_barcode.
  apply bind_ext_unused; [reflexivity | apply imread_value | apply imread_value |].
  intros _ _.
  apply bind_ext; [by apply preprocess_image_gray_ext|]. intros preprocessed_image.
  apply bind_ext; [by apply show_preprocessed_image_ext|]. intros _.
  apply bind_ext; [apply Hcall|]. intros barcodes.
  destruct barcodes; [reflexivity|].
  unfold bytes_decode_utf8, mbind, M_bind, bind.
  by destruct (utf8_valid _).
Qed.

Lemma decode_barcode_ignores_colour_witness :
  let globals := globals_with (decode_as [72; 105] "CODE128") in
  (imread "your_image_path.jpg" IMREAD_COLOR sample_world).2
  ≠ (imread "your_image_path.jpg" IMREAD_COLOR tinted_world).2
  ∧ decode_barcode globals decoder_instance "your_image_path.jpg" sample_world
    = decode_barcode globals decoder_instance "your_image_path.jpg" tinted_world.
Proof.
  intros globals. split; [vm_compute; discriminate|].
  apply (decode_barcode_ignores_colour globals decoder_instance
           "your_image_path.jpg" sample_world tinted_world).
  - vm_compute. reflexivity.
  - reflexivity.
  - intros image. reflexivity.
Defined.

(** ** More on preprocessing *)

(** X18.  [preprocess_image] reads the file once, and returns an image
    exactly when the path loads as one; otherwise it raises [cv2.error]
    from [GaussianBlur]. *)
Theorem preprocess_image_returns_iff_readable (self : BarcodeDetector)
    (image_path : string) (w : world) :
  (preprocess_image self image_path w).1 = [EvImread image_path IMREAD_GRAYSCALE]
  ∧ ((∃ bw_im, (preprocess_image self image_path w).2 = Return bw_im)
     ↔ ∃ g, loads_gray w image_path g)
  ∧ (unreadable w image_path
     ↔ (preprocess_image self image_path w).2 = Raise (cv2_error "GaussianBlur")).
Proof.
  destruct (imread_gray_cases w image_path) as [Hun|[g Hload]].
  - rewrite (preprocess_image_unreadable _ _ _ Hun). simpl.
    split; [done|]. split; [|done].
    split; [by intros [bw ?]|].
    intros [g Hload]. unfold unreadable, loads_gray in *. congruence.
  - rewrite (preprocess_image_loaded _ _ _ _ Hload). simpl.
    split; [done|]. split; [split; by eexists|].
    split; [|done]. unfold unreadable, loads_gray in *. congruence.
Qed.

(** X19.  Preprocessing is settled after one round: the image
    [preprocess_image] returns is left as it is by the thresholding step
    applied to it again. *)
Theorem preprocess_image_then_threshold (self : BarcodeDetector) (image_path : string)
    (w : world) (g : ndarray Z) :
  loads_gray w image_path g →
  ∃ bw_im ret,
    (preprocess_image self image_path w).2 = Return bw_im
    ∧ threshold bw_im 0 255 (THRESH_BINARY + THRESH_OTSU) w = ([], Return (ret, bw_im)).
Proof.
  intros Hload.
  exists (Mat8UC1 (preprocessed g)), (getThreshVal_Otsu_8u (preprocessed g)).
  rewrite (preprocess_image_loaded _ _ _ _ Hload). split; [reflexivity|].
  rewrite threshold_binary_otsu. do 4 f_equal.
  assert (Hsh : shaped (preprocessed g))
    by apply map_pixels_shaped, blur_plane_shaped.
  assert (Hlv : all_pixels two_level (preprocessed g)).
  { apply map_pixels_all. intros p. apply thresh_binary_levels. }
  assert (Hu8 : all_pixels is_uint8 (preprocessed g)).
  { eapply Forall_impl; [exact Hlv|]. intros r Hr.
    eapply Forall_impl; [exact Hr|]. apply two_level_uint8. }
  pose proof (otsu_range _ Hsh Hu8) as Ht.
  apply map_pixels_fix.
  eapply Forall_impl; [exact Hlv|]. intros r Hr.
  eapply Forall_impl; [exact Hr|]. intros p Hp; simpl.
  by apply thresh_binary_two_level.
Qed.

Lemma preprocess_image_then_threshold_witness :
  ∃ bw_im ret,
    (preprocess_image {| barcode_detector := tt |} "code128.png" sample_world).2
    = Return bw_im
    ∧ threshold bw_im 0 255 (THRESH_BINARY + THRESH_OTSU) sample_world
      = ([], Return (ret, bw_im)).
Proof.
  apply (preprocess_image_then_threshold _ "code128.png" sample_world sample_gray).
  vm_compute. reflexivity.
Defined.

(** ** Payload bytes *)

Ltac bool_hyps :=
  repeat match goal with
    | H : _ && _ = true |- _ => apply andb_prop in H; destruct H
    | H : (_ <=? _) = true |- _ => apply Z.leb_le in H
    | H : is_cont _ = true |- _ => unfold is_cont in H
    end.

Lemma utf8_valid_bytes_upto (n : nat) (bs : list Z) :
  (length bs ≤ n)%nat → utf8_valid bs = true → Forall utf8_byte bs.
Proof.
  revert bs. induction n as [|n IH]; intros bs Hlen Hv.
  { destruct bs; [constructor | simpl in Hlen; lia]. }
  destruct bs as [|b0 r0]; [constructor|].
  simpl in Hlen. cbn [utf8_valid] in Hv.
  destruct ((0 <=? b0) && (b0 <=? 127)) eqn:E1.
  { bool_hyps. constructor; [unfold utf8_byte; lia | apply IH; [lia | done]]. }
  destruct ((194 <=? b0) && (b0 <=? 223)) eqn:E2.
  { destruct r0 as [|b1 r1]; [done|]. simpl in Hlen. bool_hyps.
    repeat (constructor; [unfold utf8_byte; lia|]). apply IH; [lia | done]. }
  destruct ((224 <=? b0) && (b0 <=? 239)) eqn:E3.
  { destruct r0 as [|b1 [|b2 r2]]; [done | done |]. simpl in Hlen. bool_hyps.
    repeat (constructor; [unfold utf8_byte; lia|]). apply IH; [lia | done]. }
  destruct ((240 <=? b0) && (b0 <=? 244)) eqn:E4; [|done].
  destruct r0 as [|b1 [|b2 [|b3 r3]]]; [done | done | done |]. simpl in Hlen. bool_hyps.
  repeat (constructor; [unfold utf8_byte; lia|]). apply IH; [lia | done].
Qed.

(** X20.  A payload with a byte that well-formed UTF-8 cannot hold
    (0xC0, 0xC1, or 0xF5 and above) is not decoded: the decoding step
    raises [UnicodeDecodeError]. *)
Theorem bytes_decode_rejects (bs : list Z) (b : Z) (w : world) :
  b ∈ bs → ¬ utf8_byte b →
  bytes_decode_utf8 bs w = ([], Raise UnicodeDecodeError).
Proof.
  intros Hin Hb. unfold bytes_decode_utf8.
  destruct (utf8_valid bs) eqn:Hv; [|reflexivity].
  exfalso. apply Hb.
  pose proof (utf8_valid_bytes_upto (length bs) bs (le_n _) Hv) as Hall.
  by apply (proj1 (Forall_forall _ _) Hall).
Qed.

Lemma bytes_decode_rejects_witness :
  bytes_decode_utf8 [72; 255; 105] sample_world = ([], Raise UnicodeDecodeError).
Proof.
  apply (bytes_decode_rejects [72; 255; 105] 255 sample_world).
  - apply list_elem_of_In. simpl. tauto.
  - unfold utf8_byte. lia.
Defined.
